(** * remix-jokes: the session-based authentication module

    A shallow embedding of [app/utils/session.server.ts] (with the route
    [logout.tsx] that calls it and the start-up code of
    [app/utils/db.server.ts]), and the properties of its exported
    operations.

    The module is glue over collaborators that are not part of the
    repository.  bcryptjs, Remix' cookie session storage and the [URL]
    parser are interfaces here (type classes); the [User] table behind
    the Prisma client is the state of a small state-and-exception monad,
    in which the module's own functions are written as the source has
    them. *)

From Stdlib Require Import ZArith Ascii String.
From stdpp Require Import base option list strings gmap fin_maps.

Local Open Scope Z_scope.

Set Warnings "-register-all".

(** ** JavaScript values *)

Module Js.

(** The values a session field can hold after JSON decoding, plus
    [undefined], which is what [session.get] answers for a missing key.
    Numbers are kept as integers: only their type tag and their
    truthiness are ever inspected by the module.  An object is the list of
    its own properties in insertion order. *)
Inductive JsValue : Type :=
| JUndefined
| JNull
| JBool (b : bool)
| JNumber (n : Z)
| JString (s : string)
| JObject (fields : list (string * JsValue)).

(** [typeof v] *)
Definition typeof (v : JsValue) : string :=
  match v with
  | JUndefined => "undefined"
  | JNull => "object"
  | JBool _ => "boolean"
  | JNumber _ => "number"
  | JString _ => "string"
  | JObject _ => "object"
  end.

(** ToBoolean: the truthiness used by [!v] and [if (v)]. *)
Definition truthy (v : JsValue) : bool :=
  match v with
  | JUndefined | JNull => false
  | JBool b => b
  | JNumber n => negb (n =? 0)
  | JString s => negb (String.eqb s "")
  | JObject _ => true
  end.

End Js.
Export Js.

(** ** The HTTP surface: headers, requests, responses, redirects *)

Module Http.

(** ASCII lower-casing: header names are case-insensitive. *)
Definition lower_ascii (c : ascii) : ascii :=
  let n := N_of_ascii c in
  if ((65 <=? n) && (n <=? 90))%N then ascii_of_N (n + 32) else c.

Fixpoint lower (s : string) : string :=
  match s with
  | EmptyString => EmptyString
  | String c rest => String (lower_ascii c) (lower rest)
  end.

(** A [Headers] object: at most one value per (lower-cased) name. *)
Abbreviation Headers := (list (string * string)).

Fixpoint headers_get (h : Headers) (name : string) : option string :=
  match h with
  | [] => None
  | (k, v) :: rest =>
      if String.eqb k (lower name) then Some v else headers_get rest name
  end.

Fixpoint headers_set (name value : string) (h : Headers) : Headers :=
  match h with
  | [] => [(lower name, value)]
  | (k, v) :: rest =>
      if String.eqb k (lower name) then (k, value) :: rest
      else (k, v) :: headers_set name value rest
  end.

(** [new Headers(init)] from an object literal. *)
Definition headers_of (init : list (string * string)) : Headers :=
  foldl (fun h kv => headers_set (fst kv) (snd kv) h) [] init.

Record Request : Type := mkRequest {
  url : string;
  req_headers : Headers;
}.

Record Response : Type := mkResponse {
  status : Z;
  resp_headers : Headers;
}.

(** Remix' [redirect(url, init)] with [init] an object without a status:
    a 302 response, the given headers, and [Location] set to [url].  The
    url and the header values are taken to be legal header values, as
    the cookies of the storage and the encoded login location are; the
    [TypeError] that [Headers] raises for an illegal one is outside this
    model, and no property below speaks of it. *)
Definition redirect (location : string) (init_headers : list (string * string))
  : Response :=
  {| status := 302;
     resp_headers := headers_set "Location" location (headers_of init_headers) |}.

(** *** [URLSearchParams]: the application/x-www-form-urlencoded
    serializer.  A string is the sequence of its UTF-8 bytes, that is,
    of the bytes the serializer works on after it has made the string
    well-formed Unicode. *)

Definition hex_digit (n : N) : ascii :=
  if (n <? 10)%N then ascii_of_N (48 + n) else ascii_of_N (55 + n).

(** Bytes that the serializer leaves as they are: ASCII alphanumerics
    and [*], [-], [.], [_]. *)
Definition urlencoded_plain (c : ascii) : bool :=
  let n := N_of_ascii c in
  ((n =? 42) || (n =? 45) || (n =? 46) || (n =? 95)
   || ((48 <=? n) && (n <=? 57))
   || ((65 <=? n) && (n <=? 90))
   || ((97 <=? n) && (n <=? 122)))%N.

Definition urlencode_byte (c : ascii) : string :=
  let n := N_of_ascii c in
  if (n =? 32)%N then "+"
  else if urlencoded_plain c then String c EmptyString
  else String "%" (String (hex_digit (n / 16)) (String (hex_digit (n mod 16)) EmptyString)).

Fixpoint urlencode (s : string) : string :=
  match s with
  | EmptyString => EmptyString
  | String c rest => urlencode_byte c +:+ urlencode rest
  end.

(** [String(new URLSearchParams(pairs))] *)
Fixpoint URLSearchParams_toString (pairs : list (string * string)) : string :=
  match pairs with
  | [] => ""
  | [(k, v)] => urlencode k +:+ "=" +:+ urlencode v
  | (k, v) :: rest =>
      urlencode k +:+ "=" +:+ urlencode v +:+ "&" +:+ URLSearchParams_toString rest
  end.

(** What a browser sends back for a [Set-Cookie] value: the
    [name=value] pair in front of the first [;], without the
    attributes. *)
Fixpoint cookie_pair (set_cookie : string) : string :=
  match set_cookie with
  | EmptyString => EmptyString
  | String c rest =>
      if Ascii.eqb c ";" then EmptyString else String c (cookie_pair rest)
  end.

(** The next request of a client that received [resp]: it carries the
    cookie that [resp] set, if it set one. *)
Definition request_after (resp : Response) (next_url : string) : Request :=
  {| url := next_url;
     req_headers :=
       match headers_get (resp_headers resp) "Set-Cookie" with
       | Some sc => headers_set "Cookie" (cookie_pair sc) []
       | None => []
       end |}.

(** Characters that may appear in an encoded query component. *)
Definition urlencoded_char (c : ascii) : bool :=
  urlencoded_plain c || Ascii.eqb c "+" || Ascii.eqb c "%".

Fixpoint string_forallb (p : ascii -> bool) (s : string) : bool :=
  match s with
  | EmptyString => true
  | String c rest => p c && string_forallb p rest
  end.

End Http.
Export Http.

(** ** Results of asynchronous calls *)

(** An awaited call either returns a value or throws one. *)
Inductive Outcome (E A : Type) : Type :=
| Returned (a : A)
| Threw (e : E).
Arguments Returned {E A} a.
Arguments Threw {E A} e.

(** What the module and its collaborators throw: an [Error], a
    [Response] (Remix' redirect-as-exception), or a promise of a
    [Response] that was thrown without having been awaited; the promise
    is recorded by the outcome it settles to. *)
Inductive Thrown : Type :=
| ThrowError (message : string)
| ThrowResponse (r : Response)
| ThrowPromise (settles : Outcome Thrown Response).

(** ** The [User] table behind [db.user] *)

Module User.
(** Modelled from the spec: the Prisma schema of the [User] model is not
    among the sources; the data model gives its columns,
    [{ id: string (unique), username: string (unique), passwordHash: string }]. *)
Record t : Type := mk {
  id : string;
  username : string;
  passwordHash : string;
}.
End User.

(** The table: its rows in insertion order. *)
Abbreviation Db := (list User.t).

(** Asynchronous code of the module: it reads and writes the table and
    returns or throws. *)
Definition M (A : Type) : Type := Db -> Outcome Thrown A * Db.

Definition ret {A} (a : A) : M A := fun db => (Returned a, db).

Definition throw {A} (t : Thrown) : M A := fun db => (Threw t, db).

Definition bind {A B} (c : M A) (k : A -> M B) : M B :=
  fun db =>
    match c db with
    | (Returned a, db') => k a db'
    | (Threw t, db') => (Threw t, db')
    end.

(** A collaborator's call that does not touch the table. *)
Definition settle {A} (o : Outcome Thrown A) : M A := fun db => (o, db).

(** [throw p] for the promise [p] of a call that has been started but
    not awaited. *)
Definition throw_promise {A} (c : M Response) : M A :=
  fun db => let (o, db') := c db in (Threw (ThrowPromise o), db').

Notation "'const' x ':=' 'await' c 'in' k" := (bind c (fun x => k))
  (at level 10, x name, c at level 100, k at level 200, only parsing).

(** *** The two Prisma queries the module issues *)

Inductive UserWhereUnique : Type :=
| WhereUsername (username : string)
| WhereId (id : JsValue).

Definition where_matches (w : UserWhereUnique) (u : User.t) : bool :=
  match w with
  | WhereUsername name => String.eqb (User.username u) name
  | WhereId (JString i) => String.eqb (User.id u) i
  | WhereId _ => false
  end.

(** A row as the object Prisma hands out. *)
Definition row_object (u : User.t) : list (string * JsValue) :=
  [("id", JString (User.id u));
   ("username", JString (User.username u));
   ("passwordHash", JString (User.passwordHash u))].

(** [select: { f: true, ... }] keeps the listed columns only. *)
Definition select_fields (sel : list string) (row : list (string * JsValue))
  : list (string * JsValue) :=
  List.filter (fun kv => existsb (String.eqb (fst kv)) sel) row.

(** [db.user.findUnique({ where })]: the row, or [null]. *)
Definition db_user_findUnique (w : UserWhereUnique) : M (option User.t) :=
  fun db => (Returned (find (where_matches w) db), db).

(** [db.user.findUnique({ select, where })]: the selected columns of the
    row as an object, or [null]. *)
Definition db_user_findUnique_select (sel : list string) (w : UserWhereUnique)
  : M JsValue :=
  fun db =>
    (Returned match find (where_matches w) db with
              | Some u => JObject (select_fields sel (row_object u))
              | None => JNull
              end, db).

(** [db.user.create({ data })].  The store generates the id ([new_id] is
    the one it picks) and enforces both unique columns: a conflict is an
    error and leaves the table as it was. *)
Definition db_user_create (data_passwordHash data_username new_id : string)
  : M User.t :=
  fun db =>
    if existsb (fun u => String.eqb (User.username u) data_username
                         || String.eqb (User.id u) new_id) db
    then (Threw (ThrowError "Unique constraint failed"), db)
    else
      let user := User.mk new_id data_username data_passwordHash in
      (Returned user, db ++ [user]).

(** ** The collaborators *)

(** bcryptjs.  [bcrypt_hash password rounds salt] is [bcrypt.hash] with
    the salt it draws made explicit; [bcrypt_compare password digest] is
    [bcrypt.compare]: it resolves to a boolean, or rejects, as it does
    for a digest that is not one of bcrypt's. *)
Class Bcrypt : Type := {
  bcrypt_hash : string -> Z -> string -> string;
  bcrypt_compare : string -> string -> Outcome Thrown bool;
}.

(** The object returned by Remix' [createCookieSessionStorage]; a session
    is the map of its fields.  [getSession] takes the [Cookie] header (or
    nothing) and gives an empty session for a missing or unreadable
    cookie; [commitSession] and [destroySession] give the value of a
    [Set-Cookie] header. *)
Class SessionStorage : Type := {
  getSession : option string -> gmap string JsValue;
  commitSession : gmap string JsValue -> Outcome Thrown string;
  destroySession : gmap string JsValue -> string;
}.

(** [new URL(u).pathname] for the url of a request. *)
Class UrlApi : Type := {
  URL_pathname : string -> string;
}.

(** [session.get(name)]: [undefined] for a missing field. *)
Definition session_get (session : gmap string JsValue) (name : string) : JsValue :=
  default JUndefined (session !! name).

(** [session.set(name, value)] *)
Definition session_set (name : string) (value : JsValue)
  (session : gmap string JsValue) : gmap string JsValue :=
  <[name := value]> session.

(** What the runtime draws during [register]: the bcrypt salt and the id
    the store gives the new row. *)
Record Choices : Type := mkChoices {
  salt : string;
  new_id : string;
}.

Module LoginForm.
Record t : Type := mk {
  password : string;
  username : string;
}.
End LoginForm.

(** ** [app/utils/session.server.ts] *)

Section SessionServer.

Context {bcrypt : Bcrypt} {storage : SessionStorage} {url_api : UrlApi}.

Definition register (rnd : Choices) (form : LoginForm.t) : M JsValue :=
  let password := LoginForm.password form in
  let username := LoginForm.username form in
  const passwordHash := await ret (bcrypt_hash password 10 (salt rnd)) in
  const user := await db_user_create passwordHash username (new_id rnd) in
  ret (JObject [("id", JString (User.id user)); ("username", JString username)]).

Definition login (form : LoginForm.t) : M JsValue :=
  let password := LoginForm.password form in
  let username := LoginForm.username form in
  const user := await db_user_findUnique (WhereUsername username) in
  match user with
  | None => ret JNull
  | Some user =>
      const isCorrectPassword := await settle (bcrypt_compare password (User.passwordHash user)) in
      if negb isCorrectPassword then ret JNull
      else ret (JObject [("id", JString (User.id user)); ("username", JString username)])
  end.

Definition getUserSession (request : Request) : gmap string JsValue :=
  getSession (headers_get (req_headers request) "Cookie").

Definition getUserId (request : Request) : M JsValue :=
  const session := await ret (getUserSession request) in
  let userId := session_get session "userId" in
  if negb (truthy userId) || negb (String.eqb (typeof userId) "string")
  then ret JNull
  else ret userId.

Definition requiredUserId (request : Request) (redirectTo : option string)
  : M JsValue :=
  let redirectTo := default (URL_pathname (url request)) redirectTo in
  const session := await ret (getUserSession request) in
  let userId := session_get session "userId" in
  if negb (truthy userId) || negb (String.eqb (typeof userId) "string")
  then
    let searchParams := URLSearchParams_toString [("redirectTo", redirectTo)] in
    throw (ThrowResponse (redirect ("/login?" +:+ searchParams) []))
  else ret userId.

Definition createUserSession (userId redirectTo : string) : M Response :=
  const session := await ret (getSession None) in
  let session := session_set "userId" (JString userId) session in
  const cookie := await settle (commitSession session) in
  ret (redirect redirectTo [("Set-Cookie", cookie)]).

Definition logout (request : Request) : M Response :=
  const session := await ret (getUserSession request) in
  const cookie := await ret (destroySession session) in
  ret (redirect "/login" [("Set-Cookie", cookie)]).

Definition getUser (request : Request) : M JsValue :=
  const userId := await getUserId request in
  if negb (String.eqb (typeof userId) "string") then ret JNull
  else
    const user := await db_user_findUnique_select ["id"; "username"] (WhereId userId) in
    if negb (truthy user) then throw_promise (logout request)
    else ret user.

(** [app/routes/logout.tsx] *)
Definition logout_action (request : Request) : M Response := logout request.

Definition logout_loader : M Response := ret (redirect "/login" []).

End SessionServer.

(** ** Start-up of [session.server.ts]: the secret and the cookie options *)

(** [process.env.NAME]: the string the variable is set to, or
    [undefined]. *)
Definition env_get (env : gmap string string) (name : string) : JsValue :=
  match env !! name with
  | Some value => JString value
  | None => JUndefined
  end.

(** [v === s] for a string literal [s]. *)
Definition strict_eq_string (v : JsValue) (s : string) : bool :=
  match v with
  | JString x => String.eqb x s
  | _ => false
  end.

Module Cookie.
(** The [cookie] object handed to [createCookieSessionStorage]. *)
Record options : Type := mk {
  name : string;
  secure : bool;
  secrets : list JsValue;
  sameSite : string;
  path : string;
  maxAge : Z;
  httpOnly : bool;
}.
End Cookie.

(** The top-level statements of the module, up to the call of
    [createCookieSessionStorage]: they throw, or give the options the
    storage is created with. *)
Definition load_session_module (env : gmap string string)
  : Outcome Thrown Cookie.options :=
  let sessionSecret := env_get env "SESSION_SECRET" in
  if negb (truthy sessionSecret)
  then Threw (ThrowError "SESSION_SECRET must be set")
  else
    Returned
      {| Cookie.name := "RJ_session";
         Cookie.secure := strict_eq_string (env_get env "NODE_ENV") "production";
         Cookie.secrets := [sessionSecret];
         Cookie.sameSite := "lax";
         Cookie.path := "/";
         Cookie.maxAge := 60 * 60 * 24 * 30;
         Cookie.httpOnly := true |}.

(** ** [app/utils/db.server.ts]: the Prisma handle *)

Module DbServer.

(** What the module reads and writes when it is evaluated: the slot
    [global.__db__], and the [PrismaClient] objects.  A client is known
    by its number, the count of clients constructed before it;
    [connect_calls] lists the clients [$connect] was called on, oldest
    first. *)
Record Runtime : Type := mkRuntime {
  global_db : option nat;
  constructed : nat;
  connect_calls : list nat;
}.

(** [new PrismaClient()] *)
Definition new_PrismaClient (rt : Runtime) : nat * Runtime :=
  (constructed rt,
   {| global_db := global_db rt;
      constructed := S (constructed rt);
      connect_calls := connect_calls rt |}).

Definition set_global_db (client : nat) (rt : Runtime) : Runtime :=
  {| global_db := Some client;
     constructed := constructed rt;
     connect_calls := connect_calls rt |}.

(** [client.$connect()] *)
Definition connect (client : nat) (rt : Runtime) : Runtime :=
  {| global_db := global_db rt;
     constructed := constructed rt;
     connect_calls := connect_calls rt ++ [client] |}.

(** One evaluation of the module: the exported [db], or the [TypeError]
    of calling a method on [undefined]. *)
Definition load (env : gmap string string) (rt : Runtime)
  : Outcome Thrown nat * Runtime :=
  if strict_eq_string (env_get env "NODE_ENV") "production"
  then
    let (db, rt) := new_PrismaClient rt in
    (Returned db, rt)
  else
    let rt :=
      if negb (bool_decide (is_Some (global_db rt)))
      then
        let (client, rt) := new_PrismaClient rt in
        set_global_db client rt
      else rt in
    let db := global_db rt in
    match db with
    | Some client => (Returned client, connect client rt)
    | None =>
        (Threw (ThrowError "TypeError: Cannot read properties of undefined"), rt)
    end.

(** The module evaluated [n] times in a row (a development server
    evaluates it again at every reload): the [db] of each evaluation,
    first one first. *)
Fixpoint loads (n : nat) (env : gmap string string) (rt : Runtime)
  : list (Outcome Thrown nat) * Runtime :=
  match n with
  | O => ([], rt)
  | S n' =>
      let (db, rt) := load env rt in
      let (dbs, rt) := loads n' env rt in
      (db :: dbs, rt)
  end.

End DbServer.

(** ** Vocabulary of the properties *)

(** A session field counts as a user id when it is a non-empty string. *)
Definition valid_userId (v : JsValue) : bool :=
  match v with
  | JString s => negb (String.eqb s "")
  | _ => false
  end.

(** The names of the own properties of an object; a value that is not an
    object has none. *)
Definition property_names (v : JsValue) : list string :=
  match v with
  | JObject fields => map fst fields
  | _ => []
  end.

(** No two rows share a username, as the unique column demands. *)
Definition unique_usernames (db : Db) : Prop := NoDup (User.username <$> db).

(** No two rows share an id. *)
Definition unique_ids (db : Db) : Prop := NoDup (User.id <$> db).

(** The columns of a row other than the digest. *)
Definition public_columns (u : User.t) : string * string :=
  (User.id u, User.username u).

(** Two tables that differ at most in the digests they store. *)
Definition same_public (db1 db2 : Db) : Prop :=
  public_columns <$> db1 = public_columns <$> db2.

(** The contract of the session storage for one committed session: the
    cookie it serialises reads back as the same session. *)
Definition commit_reads_back `{SessionStorage} (session : gmap string JsValue) : Prop :=
  forall cookie,
    commitSession session = Returned cookie ->
    getSession (Some (cookie_pair cookie)) = session.

(** The contract of the session storage for one destroyed session: the
    cookie it serialises reads back as a session without fields. *)
Definition destroy_reads_empty `{SessionStorage} (session : gmap string JsValue) : Prop :=
  getSession (Some (cookie_pair (destroySession session))) = ∅.

(** ** Stand-ins for the collaborators, to run the module on examples *)

Fixpoint strip_prefix (p s : string) : option string :=
  match p, s with
  | EmptyString, _ => Some s
  | String a p', String b s' => if Ascii.eqb a b then strip_prefix p' s' else None
  | String _ _, EmptyString => None
  end.

Fixpoint drop_to (stop : ascii -> bool) (s : string) : string :=
  match s with
  | EmptyString => EmptyString
  | String c rest => if stop c then s else drop_to stop rest
  end.

Fixpoint take_to (stop : ascii -> bool) (s : string) : string :=
  match s with
  | EmptyString => EmptyString
  | String c rest => if stop c then EmptyString else String c (take_to stop rest)
  end.

(** Digests are the salt followed by the password in clear: enough for
    [compare] to recognise the password it was made from.  A digest
    without the version marker is none of its own: [compare] rejects. *)
Definition demo_bcrypt : Bcrypt := {|
  bcrypt_hash password rounds salt := "$2a$" +:+ salt +:+ "$" +:+ password;
  bcrypt_compare password digest :=
    match strip_prefix "$2a$" digest with
    | Some rest =>
        Returned (String.eqb (drop_to (Ascii.eqb "$") rest) ("$" +:+ password))
    | None => Threw (ThrowError "Invalid salt version")
    end;
|}.

(** Cookies hold the user id in clear after the marker [u.]; ids are
    expected not to contain [;]. *)
Definition demo_storage : SessionStorage := {|
  getSession header :=
    match header with
    | Some cookie =>
        match strip_prefix "RJ_session=u." cookie with
        | Some u => {[ "userId" := JString u ]}
        | None => ∅
        end
    | None => ∅
    end;
  commitSession session :=
    let value :=
      match session !! "userId" with
      | Some (JString u) => "u." +:+ u
      | _ => ""
      end in
    let cookie :=
      "RJ_session=" +:+ value +:+ "; Max-Age=2592000; Path=/; HttpOnly; SameSite=Lax" in
    if (4096 <? String.length cookie)%nat
    then Threw (ThrowError "Cookie length will exceed browser maximum")
    else Returned cookie;
  destroySession _ :=
    "RJ_session=; Expires=Thu, 01 Jan 1970 00:00:00 GMT; Path=/; HttpOnly; SameSite=Lax";
|}.

(** Pathname of an absolute [scheme://host/path?query#fragment] url. *)
Definition demo_url : UrlApi := {|
  URL_pathname u :=
    let after_scheme :=
      match index 0 "://" u with
      | Some n => substring (n + 3) (String.length u - (n + 3)) u
      | None => u
      end in
    let path :=
      take_to (fun c => Ascii.eqb c "?" || Ascii.eqb c "#")
              (drop_to (Ascii.eqb "/") after_scheme) in
    if String.eqb path "" then "/" else path;
|}.

Definition demo_users : Db :=
  [User.mk "u1" "kody" "$2a$salt1$twixrox"; User.mk "u2" "mr_bean" "$2a$salt2$teddy"].

Definition request_with_cookie (u : string) (cookie : option string) : Request :=
  {| url := u;
     req_headers :=
       match cookie with
       | Some c => headers_set "Cookie" c []
       | None => []
       end |}.

(** A request for [/jokes], with or without a [Cookie] header. *)
Definition jokes_request (cookie : option string) : Request :=
  request_with_cookie "http://localhost:3000/jokes" cookie.

(** Its session names a user that is not in [demo_users]. *)
Definition stale_request : Request := jokes_request (Some "RJ_session=u.ghost").

(** Its session has the empty string as [userId]. *)
Definition empty_id_request : Request := jokes_request (Some "RJ_session=u.").

Definition kody : User.t := User.mk "u1" "kody" "$2a$salt1$twixrox".

(** A row whose digest was not made by [bcrypt.hash]. *)
Definition legacy : User.t := User.mk "u0" "legacy" "plain-text-password".

Definition joe_form : LoginForm.t := LoginForm.mk "s3cret" "joe".

Definition joe_choices : Choices := mkChoices "salt3" "u3".

Definition destroyed_cookie : string :=
  "RJ_session=; Expires=Thu, 01 Jan 1970 00:00:00 GMT; Path=/; HttpOnly; SameSite=Lax".

(** An environment of a development server, and of a production one. *)
Definition dev_env : gmap string string :=
  {[ "SESSION_SECRET" := "s3cr3t"; "NODE_ENV" := "development" ]}.

Definition production_env : gmap string string :=
  {[ "SESSION_SECRET" := "s3cr3t"; "NODE_ENV" := "production" ]}.

(** A process in which no client exists yet. *)
Definition fresh_runtime : DbServer.Runtime := DbServer.mkRuntime None 0 [].

(** * Properties *)

(** ** Facts about the collaborator-independent parts *)

Lemma typeof_string (v : JsValue) :
  typeof v = "string" <-> exists s, v = JString s.
Proof.
  split.
  - destruct v; simpl; try discriminate. eauto.
  - intros [s ->]. reflexivity.
Qed.

Lemma valid_userId_string (v : JsValue) :
  valid_userId v = true <-> exists s, v = JString s /\ s <> "".
Proof.
  split.
  - destruct v as [ | | | | s | ]; simpl; try discriminate.
    intros Hs. exists s. split; [reflexivity|].
    intros ->. discriminate.
  - intros (s & -> & Hs). simpl.
    apply String.eqb_neq in Hs. now rewrite Hs.
Qed.

Lemma string_forallb_app (p : ascii -> bool) (s1 s2 : string) :
  string_forallb p (s1 +:+ s2) = string_forallb p s1 && string_forallb p s2.
Proof.
  induction s1 as [|c s1 IH]; simpl; [reflexivity|].
  rewrite IH. now rewrite andb_assoc.
Qed.

Lemma urlencode_byte_chars (c : ascii) :
  string_forallb urlencoded_char (urlencode_byte c) = true.
Proof. destruct c as [[] [] [] [] [] [] [] []]; reflexivity. Qed.

Lemma urlencode_chars (s : string) :
  string_forallb urlencoded_char (urlencode s) = true.
Proof.
  induction s as [|c s IH]; simpl; [reflexivity|].
  rewrite string_forallb_app, urlencode_byte_chars, IH. reflexivity.
Qed.

Lemma headers_get_set (name value : string) (h : Headers) :
  headers_get (headers_set name value h) name = Some value.
Proof.
  induction h as [|[k v] h IH]; cbn [headers_set headers_get].
  - now rewrite String.eqb_refl.
  - destruct (String.eqb k (lower name)) eqn:E; cbn [headers_get]; rewrite E; auto.
Qed.

Lemma redirect_location (location : string) (init : list (string * string)) :
  headers_get (resp_headers (redirect location init)) "Location" = Some location.
Proof. apply headers_get_set. Qed.

Lemma redirect_set_cookie (location cookie : string) :
  headers_get (resp_headers (redirect location [("Set-Cookie", cookie)])) "Set-Cookie"
  = Some cookie.
Proof. reflexivity. Qed.

Lemma request_after_cookie (location cookie next_url : string) :
  headers_get
    (req_headers (request_after (redirect location [("Set-Cookie", cookie)]) next_url))
    "Cookie"
  = Some (cookie_pair cookie).
Proof. reflexivity. Qed.

Lemma find_where_none (w : UserWhereUnique) (db : Db) :
  (forall u, u ∈ db -> where_matches w u = false) ->
  find (where_matches w) db = None.
Proof.
  induction db as [|u db IH]; intros H; simpl; [reflexivity|].
  rewrite (H u) by apply list_elem_of_here.
  apply IH. intros u' Hu'. apply H. now apply list_elem_of_further.
Qed.

Lemma find_app_none (w : UserWhereUnique) (db more : Db) :
  find (where_matches w) db = None ->
  find (where_matches w) (db ++ more) = find (where_matches w) more.
Proof.
  induction db as [|u db IH]; simpl; [reflexivity|].
  destruct (where_matches w u); [discriminate|exact IH].
Qed.

Lemma find_app_some (w : UserWhereUnique) (db more : Db) (u : User.t) :
  find (where_matches w) db = Some u ->
  find (where_matches w) (db ++ more) = Some u.
Proof.
  induction db as [|u' db IH]; simpl; [discriminate|].
  destruct (where_matches w u'); [trivial|exact IH].
Qed.

Lemma find_username_unique (db : Db) (u : User.t) :
  unique_usernames db -> u ∈ db ->
  find (where_matches (WhereUsername (User.username u))) db = Some u.
Proof.
  unfold unique_usernames.
  induction db as [|u' db IH]; intros Hnd Hin; [inversion Hin|].
  rewrite fmap_cons in Hnd. apply NoDup_cons in Hnd as [Hnotin Hnd]. simpl.
  apply elem_of_cons in Hin as [->|Hin].
  - now rewrite String.eqb_refl.
  - destruct (String.eqb (User.username u') (User.username u)) eqn:E.
    + apply String.eqb_eq in E. exfalso. apply Hnotin. rewrite E.
      apply list_elem_of_fmap. eauto.
    + auto.
Qed.

(** Closes [name ∉ names] for a literal list of other names. *)
Ltac absent_name :=
  let Hin := fresh "Hin" in
  simpl; intros Hin;
  repeat (apply elem_of_cons in Hin as [Hin|Hin]; [discriminate Hin|]);
  now apply elem_of_nil in Hin.

(** ** The operations of the module *)

Section SessionServerProperties.

Context {bcrypt : Bcrypt} {storage : SessionStorage} {url_api : UrlApi}.

(** [getUserId] in one equation: it returns, leaves the table alone, and
    answers the session's [userId] when that is a non-empty string and
    [null] otherwise. *)
Lemma getUserId_run (request : Request) (db : Db) :
  getUserId request db =
  (Returned (let userId := session_get (getUserSession request) "userId" in
             if valid_userId userId then userId else JNull), db).
Proof.
  unfold getUserId, bind, ret. cbn zeta.
  destruct (session_get (getUserSession request) "userId") as [ | | b | n | s | o];
    cbn [truthy typeof valid_userId];
    try (rewrite orb_true_r; reflexivity).
  destruct (String.eqb s ""); reflexivity.
Qed.

(** [requiredUserId] in one equation. *)
Lemma requiredUserId_run (request : Request) (redirectTo : option string) (db : Db) :
  requiredUserId request redirectTo db =
  (let userId := session_get (getUserSession request) "userId" in
   if valid_userId userId then Returned userId
   else Threw (ThrowResponse
                 (redirect ("/login?redirectTo=" +:+
                            urlencode (default (URL_pathname (url request)) redirectTo))
                           [])),
   db).
Proof.
  unfold requiredUserId, bind, ret, throw. cbn zeta.
  destruct (session_get (getUserSession request) "userId") as [ | | b | n | s | o];
    cbn [truthy typeof valid_userId];
    try (rewrite orb_true_r; reflexivity).
  destruct (String.eqb s ""); reflexivity.
Qed.

(** C7: [getUserId] reads the session of the request's cookie, never
    throws, and returns [null] whenever the session has no [userId] field
    or the field is not a string. *)
Theorem getUserId_null_without_string_userId (request : Request) (db : Db) :
  (exists v, getUserId request db = (Returned v, db)) /\
  (getUserSession request = getSession (headers_get (req_headers request) "Cookie")) /\
  (getUserSession request !! "userId" = None \/
   typeof (session_get (getUserSession request) "userId") <> "string" ->
   getUserId request db = (Returned JNull, db)).
Proof.
  rewrite getUserId_run. split; [eauto|]. split; [reflexivity|].
  intros H. cbn zeta.
  destruct (valid_userId _) eqn:Hv; [|reflexivity].
  apply valid_userId_string in Hv as (s & Hs & _).
  destruct H as [H|H].
  - unfold session_get in Hs. rewrite H in Hs. discriminate.
  - rewrite Hs in H. now contradict H.
Qed.

(** C10: a session whose [userId] is the empty string counts as having
    none: [getUserId] returns [null], [requiredUserId] throws the login
    redirect, and neither ever returns the empty string. *)
Theorem empty_userId_treated_as_absent
  (request : Request) (redirectTo : option string) (db : Db) :
  (session_get (getUserSession request) "userId" = JString "" ->
   getUserId request db = (Returned JNull, db) /\
   requiredUserId request redirectTo db =
     (Threw (ThrowResponse
               (redirect ("/login?redirectTo=" +:+
                          urlencode (default (URL_pathname (url request)) redirectTo))
                         [])), db)) /\
  fst (getUserId request db) <> Returned (JString "") /\
  fst (requiredUserId request redirectTo db) <> Returned (JString "").
Proof.
  rewrite getUserId_run, requiredUserId_run. cbn zeta. split; [|split].
  - intros ->. split; reflexivity.
  - simpl. destruct (valid_userId _) eqn:Hv; [|discriminate].
    apply valid_userId_string in Hv as (s & -> & Hs). congruence.
  - simpl. destruct (valid_userId _) eqn:Hv; [|discriminate].
    apply valid_userId_string in Hv as (s & -> & Hs). congruence.
Qed.

(** C4: without a valid [userId] in the session (in particular without a
    session cookie, for which the storage gives a session with no
    [userId]) [requiredUserId] does not return: it throws a redirect
    response whose location is [/login?redirectTo=] followed by the
    form-urlencoded target, the target being [redirectTo] or, by
    default, the path of the request; the encoded target is made of
    unreserved characters, [+] and [%] only.  With a valid [userId] it
    returns that [userId]. *)
Theorem requiredUserId_redirects_to_login
  (request : Request) (redirectTo : option string) (db : Db) :
  let userId := session_get (getUserSession request) "userId" in
  let target := default (URL_pathname (url request)) redirectTo in
  let location := "/login?redirectTo=" +:+ urlencode target in
  (valid_userId userId = false ->
   exists r,
     requiredUserId request redirectTo db = (Threw (ThrowResponse r), db) /\
     status r = 302 /\
     headers_get (resp_headers r) "Location" = Some location) /\
  (headers_get (req_headers request) "Cookie" = None ->
   getSession None !! "userId" = None ->
   valid_userId userId = false) /\
  string_forallb urlencoded_char (urlencode target) = true /\
  (valid_userId userId = true ->
   requiredUserId request redirectTo db = (Returned userId, db)).
Proof.
  intros userId target location. rewrite requiredUserId_run. cbn zeta.
  fold userId target location. repeat split.
  - intros ->. eexists. split; [reflexivity|]. split; [reflexivity|].
    apply redirect_location.
  - intros Hc Hs. unfold userId, getUserSession, session_get.
    rewrite Hc, Hs. reflexivity.
  - apply urlencode_chars.
  - intros ->. reflexivity.
Qed.

(** [logout] in one equation: it always returns the redirect to [/login]
    that carries the cookie of the destroyed session. *)
Lemma logout_run (request : Request) (db : Db) :
  logout request db =
  (Returned (redirect "/login"
               [("Set-Cookie", destroySession (getUserSession request))]), db).
Proof. reflexivity. Qed.

(** C1: for a session whose [userId] is a non-empty string that is the
    id of no row, [getUser] does not end in the logout redirect.  It
    throws the promise that the call [logout request] gave, without
    having awaited it: the thrown value is not a response, it is a
    promise that fulfils with the 302 redirect to [/login] whose
    [Set-Cookie] is the destroyed session.  The sibling [requiredUserId]
    throws its redirect as a response. *)
Theorem getUser_stale_session_throws_unawaited_promise
  (request : Request) (db : Db) (userId : string) :
  session_get (getUserSession request) "userId" = JString userId ->
  userId <> "" ->
  (forall u, u ∈ db -> User.id u <> userId) ->
  let r := redirect "/login"
             [("Set-Cookie", destroySession (getUserSession request))] in
  logout request db = (Returned r, db) /\
  getUser request db = (Threw (ThrowPromise (Returned r)), db) /\
  (forall response, getUser request db <> (Threw (ThrowResponse response), db)) /\
  (forall v, getUser request db <> (Returned v, db)).
Proof.
  intros Hs Hne Hdb r.
  assert (Hv : valid_userId (JString userId) = true).
  { apply valid_userId_string. eauto. }
  assert (Hthrow : getUser request db = (Threw (ThrowPromise (Returned r)), db)).
  { unfold getUser, bind. rewrite getUserId_run. cbn zeta. rewrite Hs, Hv.
    cbn [typeof String.eqb Ascii.eqb Bool.eqb negb].
    unfold db_user_findUnique_select.
    rewrite find_where_none.
    - reflexivity.
    - intros u Hu. simpl. apply String.eqb_neq. now apply Hdb. }
  split; [apply logout_run|]. split; [exact Hthrow|].
  rewrite Hthrow. split; intros; discriminate.
Qed.

(** C2: when [register] succeeds, with a digest that [bcrypt.compare]
    accepts for the password it was made from, it returns [{id,
    username}], and [login] with the same form, on the table as
    [register] left it and also after further rows were added to it,
    returns [{id, username}] with the same [id]. *)
Theorem login_after_register
  (rnd : Choices) (form : LoginForm.t) (db db' : Db) (registered : JsValue) :
  bcrypt_compare (LoginForm.password form)
    (bcrypt_hash (LoginForm.password form) 10 (salt rnd)) = Returned true ->
  register rnd form db = (Returned registered, db') ->
  exists id,
    registered = JObject [("id", JString id);
                          ("username", JString (LoginForm.username form))] /\
    forall later,
      login form (db' ++ later) =
      (Returned (JObject [("id", JString id);
                          ("username", JString (LoginForm.username form))]),
       db' ++ later).
Proof.
  intros Hcmp Hreg. unfold register, bind, ret, db_user_create in Hreg.
  cbn zeta in Hreg.
  destruct (existsb _ db) eqn:Hex; [discriminate|].
  injection Hreg as <- <-. exists (new_id rnd). split; [reflexivity|].
  intros later. unfold login, bind, ret, settle, db_user_findUnique. cbn zeta.
  assert (Hfind : find (where_matches (WhereUsername (LoginForm.username form)))
                    (db ++ [User.mk (new_id rnd) (LoginForm.username form)
                              (bcrypt_hash (LoginForm.password form) 10 (salt rnd))])
                  = Some (User.mk (new_id rnd) (LoginForm.username form)
                            (bcrypt_hash (LoginForm.password form) 10 (salt rnd)))).
  { rewrite find_app_none.
    - simpl. now rewrite String.eqb_refl.
    - apply find_where_none. intros u Hu.
      destruct (where_matches _ u) eqn:E; [|reflexivity].
      simpl in E.
      assert (existsb (fun u => String.eqb (User.username u) (LoginForm.username form)
                                || String.eqb (User.id u) (new_id rnd)) db = true) as Hc.
      { apply existsb_exists. exists u. split.
        - now apply list_elem_of_In.
        - now rewrite E. }
      congruence. }
  rewrite (find_app_some _ _ later _ Hfind). cbn [User.passwordHash User.id].
  rewrite Hcmp. reflexivity.
Qed.

(** The unique column stays unique: [register] keeps the usernames of the
    table distinct. *)
Lemma register_keeps_usernames_unique (rnd : Choices) (form : LoginForm.t) (db : Db) :
  unique_usernames db -> unique_usernames (snd (register rnd form db)).
Proof.
  intros Huniq. unfold register, bind, ret, db_user_create. cbn zeta.
  destruct (existsb _ db) eqn:Hex; simpl; [exact Huniq|].
  unfold unique_usernames. rewrite fmap_app. apply NoDup_app.
  split; [exact Huniq|]. split; [|apply NoDup_singleton].
  intros name Hname Hnew. simpl in Hnew.
  apply list_elem_of_singleton in Hnew. subst name.
  apply list_elem_of_fmap in Hname as (u & Hu & Hin).
  assert (existsb (fun u => String.eqb (User.username u) (LoginForm.username form)
                            || String.eqb (User.id u) (new_id rnd)) db = true) as Hc.
  { apply existsb_exists. exists u. split; [now apply list_elem_of_In|].
    rewrite <- Hu, String.eqb_refl. reflexivity. }
  congruence.
Qed.

(** [login] in one equation: the row [findUnique] gives decides, with
    what [bcrypt.compare] answers for its digest. *)
Lemma login_run (form : LoginForm.t) (db : Db) :
  login form db =
  (match find (where_matches (WhereUsername (LoginForm.username form))) db with
   | None => Returned JNull
   | Some user =>
       match bcrypt_compare (LoginForm.password form) (User.passwordHash user) with
       | Returned true =>
           Returned (JObject [("id", JString (User.id user));
                              ("username", JString (LoginForm.username form))])
       | Returned false => Returned JNull
       | Threw t => Threw t
       end
   end, db).
Proof.
  unfold login, bind, ret, settle, db_user_findUnique. cbn zeta.
  destruct (find _ db) as [user|]; [|reflexivity].
  destruct (bcrypt_compare _ _) as [[]|t]; reflexivity.
Qed.

(** C3: [login] returns [null], and throws nothing, when no row has the
    username, and, for the row with that username (in a table whose
    usernames are unique), when [bcrypt.compare] answers false for the
    password and the row's digest; when it answers true, [login] returns
    [{id, username}] of the row.  [login] throws only what
    [bcrypt.compare] throws. *)
Theorem login_null_or_identity (form : LoginForm.t) (db : Db) :
  ((forall u, u ∈ db -> User.username u <> LoginForm.username form) ->
   login form db = (Returned JNull, db)) /\
  (forall u,
     unique_usernames db -> u ∈ db ->
     User.username u = LoginForm.username form ->
     (bcrypt_compare (LoginForm.password form) (User.passwordHash u) = Returned false ->
      login form db = (Returned JNull, db)) /\
     (bcrypt_compare (LoginForm.password form) (User.passwordHash u) = Returned true ->
      login form db =
      (Returned (JObject [("id", JString (User.id u));
                          ("username", JString (LoginForm.username form))]), db)) /\
     (forall t,
        bcrypt_compare (LoginForm.password form) (User.passwordHash u) = Threw t ->
        login form db = (Threw t, db))).
Proof.
  rewrite login_run. split.
  - intros Hnone. rewrite find_where_none; [reflexivity|].
    intros u Hu. simpl. apply String.eqb_neq. now apply Hnone.
  - intros u Huniq Hin Hname. rewrite <- Hname.
    rewrite (find_username_unique db u Huniq Hin).
    repeat split; intros; now match goal with H : _ = _ |- _ => rewrite H end.
Qed.

(** The session of a request that carries the cookie of a redirect. *)
Lemma getUserSession_after (location cookie next_url : string) :
  getUserSession (request_after (redirect location [("Set-Cookie", cookie)]) next_url)
  = getSession (Some (cookie_pair cookie)).
Proof. reflexivity. Qed.

(** C5, as the code has it: for a non-empty [userId], when
    [createUserSession] returns its response (a redirect to [redirectTo]
    whose [Set-Cookie] is the committed session) and the storage reads
    that cookie back as the session it committed, [getUserId] on a later
    request carrying the cookie returns [userId]. *)
Theorem getUserId_after_createUserSession
  (userId redirectTo : string) (db db' : Db) (response : Response) :
  userId <> "" ->
  commit_reads_back (session_set "userId" (JString userId) (getSession None)) ->
  createUserSession userId redirectTo db = (Returned response, db') ->
  headers_get (resp_headers response) "Location" = Some redirectTo /\
  (exists cookie,
     commitSession (session_set "userId" (JString userId) (getSession None))
       = Returned cookie /\
     headers_get (resp_headers response) "Set-Cookie" = Some cookie) /\
  forall next_url db'',
    getUserId (request_after response next_url) db'' = (Returned (JString userId), db'').
Proof.
  intros Hne Hback Hcreate.
  unfold createUserSession, bind, ret, settle in Hcreate. cbn zeta in Hcreate.
  destruct (commitSession _) as [cookie|t] eqn:Hcommit; [|discriminate].
  injection Hcreate as <- <-.
  split; [apply redirect_location|]. split; [eauto using redirect_set_cookie|].
  intros next_url db''. rewrite getUserId_run. cbn zeta.
  rewrite getUserSession_after, (Hback cookie Hcommit).
  unfold session_get, session_set. rewrite lookup_insert_eq. simpl.
  apply String.eqb_neq in Hne. now rewrite Hne.
Qed.

(** C6: [logout] returns the 302 redirect to [/login] whose [Set-Cookie]
    is the destroyed session of the request; when the storage reads that
    cookie back as a session without fields, [getUserId] on a later
    request carrying it returns [null]. *)
Theorem getUserId_after_logout (request : Request) (db : Db) :
  destroy_reads_empty (getUserSession request) ->
  exists response,
    logout request db = (Returned response, db) /\
    status response = 302 /\
    headers_get (resp_headers response) "Location" = Some "/login" /\
    headers_get (resp_headers response) "Set-Cookie"
      = Some (destroySession (getUserSession request)) /\
    forall next_url db',
      getUserId (request_after response next_url) db' = (Returned JNull, db').
Proof.
  intros Hempty.
  exists (redirect "/login" [("Set-Cookie", destroySession (getUserSession request))]).
  split; [apply logout_run|]. split; [reflexivity|]. split; [reflexivity|].
  split; [reflexivity|].
  intros next_url db'. rewrite getUserId_run. cbn zeta.
  rewrite getUserSession_after. unfold destroy_reads_empty in Hempty.
  rewrite Hempty. reflexivity.
Qed.

(** C8: no operation changes or removes a row.  [register] either fails
    and leaves the table as it was, or returns and appends exactly one
    row after the existing ones; every other operation leaves the table
    exactly as it was, whether it returns or throws. *)
Theorem user_table_never_mutated
  (rnd : Choices) (form : LoginForm.t) (request : Request)
  (redirectTo : option string) (userId target : string) (db : Db) :
  ((exists t, register rnd form db = (Threw t, db)) \/
   (exists v u, register rnd form db = (Returned v, db ++ [u]))) /\
  (forall i u, db !! i = Some u -> snd (register rnd form db) !! i = Some u) /\
  snd (login form db) = db /\
  snd (getUserId request db) = db /\
  snd (getUser request db) = db /\
  snd (createUserSession userId target db) = db /\
  snd (requiredUserId request redirectTo db) = db /\
  snd (logout request db) = db.
Proof.
  assert (Hreg : (exists t, register rnd form db = (Threw t, db)) \/
                 (exists v u, register rnd form db = (Returned v, db ++ [u]))).
  { unfold register, bind, ret, db_user_create. cbn zeta.
    destruct (existsb _ db); [left|right]; eauto. }
  split; [exact Hreg|]. split.
  { intros i u Hi. destruct Hreg as [[t ->]|(v & u' & ->)]; simpl; [exact Hi|].
    now apply lookup_app_l_Some. }
  split.
  { now rewrite login_run. }
  split; [now rewrite getUserId_run|].
  split.
  { unfold getUser, bind. rewrite getUserId_run. cbn zeta.
    destruct (negb _); [reflexivity|].
    unfold db_user_findUnique_select.
    destruct (negb _); reflexivity. }
  split.
  { unfold createUserSession, bind, ret, settle. cbn zeta.
    destruct (commitSession _); reflexivity. }
  split; [now rewrite requiredUserId_run|reflexivity].
Qed.

(** The row a query finds has the same public columns in two tables
    that differ only in their digests. *)
Lemma find_same_public (w : UserWhereUnique) (db1 db2 : Db) :
  same_public db1 db2 ->
  public_columns <$> find (where_matches w) db1
  = public_columns <$> find (where_matches w) db2.
Proof.
  unfold same_public. revert db2.
  induction db1 as [|u1 db1 IH]; intros [|u2 db2] Heq; try discriminate;
    [reflexivity|].
  rewrite !fmap_cons in Heq. injection Heq as Hid Hname Hrest.
  assert (Hm : where_matches w u1 = where_matches w u2).
  { destruct w as [name|[ | | | |i| ]]; simpl; congruence. }
  simpl. rewrite <- Hm. destruct (where_matches w u1).
  - simpl. unfold public_columns. congruence.
  - now apply IH.
Qed.

(** [getUser] in one equation. *)
Lemma getUser_run (request : Request) (db : Db) :
  getUser request db =
  (let userId := session_get (getUserSession request) "userId" in
   if valid_userId userId then
     match find (where_matches (WhereId userId)) db with
     | Some u =>
         Returned (JObject [("id", JString (User.id u));
                            ("username", JString (User.username u))])
     | None => Threw (ThrowPromise (fst (logout request db)))
     end
   else Returned JNull, db).
Proof.
  unfold getUser, bind. rewrite getUserId_run. cbn zeta.
  destruct (valid_userId _) eqn:Hv; [|reflexivity].
  apply valid_userId_string in Hv as (s & -> & _).
  cbn [typeof String.eqb Ascii.eqb Bool.eqb negb].
  unfold db_user_findUnique_select.
  destruct (find _ db); reflexivity.
Qed.

(** C9: no operation hands the stored digest to its caller.  What
    [register] returns is the object of the id the store chose and the
    username it was given, and what [login] returns is [null] or the
    object of a row's id and the given username: objects with the two
    properties [id] and [username] and no [passwordHash].  Nothing any
    operation returns or throws depends on the digests in the table:
    on a second table that differs from the first in its digests only,
    [getUser], [getUserId], [requiredUserId], [createUserSession] and
    [logout] end exactly as on the first, and [login], where it returns
    an identity on both, returns the same one. *)
Theorem passwordHash_never_returned
  (rnd : Choices) (form : LoginForm.t) (request : Request)
  (redirectTo : option string) (userId target : string)
  (db db' db2 : Db) (v : JsValue) :
  (register rnd form db = (Returned v, db') ->
   v = JObject [("id", JString (new_id rnd));
                ("username", JString (LoginForm.username form))]) /\
  (login form db = (Returned v, db') ->
   v = JNull \/
   exists u, u ∈ db /\
     v = JObject [("id", JString (User.id u));
                  ("username", JString (LoginForm.username form))]) /\
  (register rnd form db = (Returned v, db') \/
   login form db = (Returned v, db') \/
   getUser request db = (Returned v, db') ->
   v = JNull \/ property_names v = ["id"; "username"]) /\
  (same_public db db2 ->
   (forall v2 db2',
      login form db = (Returned v, db') -> v <> JNull ->
      login form db2 = (Returned v2, db2') -> v2 <> JNull ->
      v2 = v) /\
   fst (getUser request db2) = fst (getUser request db)) /\
  fst (getUserId request db2) = fst (getUserId request db) /\
  fst (requiredUserId request redirectTo db2) = fst (requiredUserId request redirectTo db) /\
  fst (createUserSession userId target db2) = fst (createUserSession userId target db) /\
  fst (logout request db2) = fst (logout request db).
Proof.
  assert (Hreg : register rnd form db = (Returned v, db') ->
                 v = JObject [("id", JString (new_id rnd));
                              ("username", JString (LoginForm.username form))]).
  { unfold register, bind, ret, db_user_create. cbn zeta.
    destruct (existsb _ db); [discriminate|]. now intros [= <- <-]. }
  assert (Hlogin : login form db = (Returned v, db') ->
                   v = JNull \/
                   exists u, u ∈ db /\
                     v = JObject [("id", JString (User.id u));
                                  ("username", JString (LoginForm.username form))]).
  { rewrite login_run.
    destruct (find _ db) as [u|] eqn:Hfind; [|intros [= <- <-]; now left].
    apply find_some in Hfind as [Hin _]. apply list_elem_of_In in Hin.
    destruct (bcrypt_compare _ _) as [[]|t]; intros [= <- <-]; eauto. }
  split; [exact Hreg|]. split; [exact Hlogin|]. split.
  { intros [H|[H|H]].
    - right. now rewrite (Hreg H).
    - destruct (Hlogin H) as [-> | (u & _ & ->)]; auto.
    - revert H. rewrite getUser_run. cbn zeta.
      destruct (valid_userId _); [|intros [= <- <-]; now left].
      destruct (find _ db); [|discriminate]. intros [= <- <-]. now right. }
  split.
  { intros Hsame. split.
    - intros v2 db2'. rewrite !login_run.
      pose proof (find_same_public
                    (WhereUsername (LoginForm.username form)) db db2 Hsame) as Hfind.
      destruct (find _ db) as [u|]; [|intros [= <- <-]; congruence].
      destruct (find _ db2) as [u2|]; [|intros _ _ [= <- <-]; congruence].
      simpl in Hfind. unfold public_columns in Hfind. injection Hfind as Hid _.
      destruct (bcrypt_compare _ (User.passwordHash u)) as [[]|t];
        intros [= <- <-]; [|congruence]. intros _.
      destruct (bcrypt_compare _ (User.passwordHash u2)) as [[]|t];
        intros [= <- <-]; [|congruence]. intros _. now rewrite Hid.
    - rewrite !getUser_run, !logout_run. cbn zeta. cbn [fst].
      destruct (valid_userId _); [|reflexivity].
      pose proof (find_same_public
                    (WhereId (session_get (getUserSession request) "userId"))
                    db db2 Hsame) as Hfind.
      destruct (find _ db) as [u|]; destruct (find _ db2) as [u2|];
        try discriminate; [|reflexivity].
      simpl in Hfind. unfold public_columns in Hfind. injection Hfind as Hid Hname.
      now rewrite Hid, Hname. }
  rewrite !getUserId_run, !requiredUserId_run, !logout_run.
  split; [reflexivity|]. split; [reflexivity|]. split; [|reflexivity].
  unfold createUserSession, bind, ret, settle. cbn zeta.
  destruct (commitSession _); reflexivity.
Qed.

End SessionServerProperties.

(** ** Start-up and the Prisma handle *)

Lemma strict_eq_env (env : gmap string string) (name value : string) :
  strict_eq_string (env_get env name) value = true <-> env !! name = Some value.
Proof.
  unfold env_get. destruct (env !! name) as [x|]; simpl.
  - rewrite String.eqb_eq. split; congruence.
  - split; discriminate.
Qed.

Lemma strict_eq_env_false (env : gmap string string) (name value : string) :
  env !! name <> Some value -> strict_eq_string (env_get env name) value = false.
Proof.
  intros H. destruct (strict_eq_string _ _) eqn:E; [|reflexivity].
  now apply strict_eq_env in E.
Qed.

(** The module refuses to load without a session secret, and an empty
    secret counts as none: it throws [SESSION_SECRET must be set] when
    the variable is unset or empty.  With a non-empty secret it loads;
    the cookie is then named [RJ_session], signed with exactly that
    secret, lives 2592000 seconds, and is [secure] exactly when
    [NODE_ENV] is the string [production]. *)
Theorem load_session_module_needs_secret (env : gmap string string) :
  (env !! "SESSION_SECRET" = None \/ env !! "SESSION_SECRET" = Some "" ->
   load_session_module env = Threw (ThrowError "SESSION_SECRET must be set")) /\
  (forall secret,
     env !! "SESSION_SECRET" = Some secret -> secret <> "" ->
     exists opts,
       load_session_module env = Returned opts /\
       Cookie.name opts = "RJ_session" /\
       Cookie.secrets opts = [JString secret] /\
       Cookie.maxAge opts = 2592000 /\
       (Cookie.secure opts = true <-> env !! "NODE_ENV" = Some "production")).
Proof.
  unfold load_session_module. split.
  - intros [H|H]; unfold env_get at 1; rewrite H; reflexivity.
  - intros secret Hs Hne. unfold env_get at 1 3. rewrite Hs. cbn [truthy].
    apply String.eqb_neq in Hne. rewrite Hne. cbn [negb].
    eexists. split; [reflexivity|]. cbn [Cookie.name Cookie.secrets Cookie.maxAge Cookie.secure].
    split; [reflexivity|]. split; [reflexivity|]. split; [reflexivity|].
    apply strict_eq_env.
Qed.

Import DbServer.

(** One evaluation outside production: the client of the global slot,
    made first if the slot was empty, and connected. *)
Lemma load_dev (env : gmap string string) (rt : Runtime) :
  env !! "NODE_ENV" <> Some "production" ->
  load env rt =
  (Returned (default (constructed rt) (global_db rt)),
   {| global_db := Some (default (constructed rt) (global_db rt));
      constructed := match global_db rt with
                     | Some _ => constructed rt
                     | None => S (constructed rt)
                     end;
      connect_calls := connect_calls rt ++ [default (constructed rt) (global_db rt)] |}).
Proof.
  intros Hdev. unfold load. rewrite (strict_eq_env_false _ _ _ Hdev).
  destruct rt as [[c|] k calls]; reflexivity.
Qed.

(** Once the slot holds a client, further evaluations only connect it. *)
Lemma loads_dev_from_global
  (env : gmap string string) (rt : Runtime) (n : nat) (client : nat) :
  env !! "NODE_ENV" <> Some "production" ->
  global_db rt = Some client ->
  loads n env rt =
  (replicate n (Returned client),
   {| global_db := Some client;
      constructed := constructed rt;
      connect_calls := connect_calls rt ++ replicate n client |}).
Proof.
  intros Hdev. revert rt. induction n as [|n IH]; intros rt Hc.
  - simpl. rewrite app_nil_r. destruct rt; simpl in *. now subst.
  - cbn [loads]. rewrite (load_dev env rt Hdev), Hc. cbn [default].
    rewrite IH by reflexivity. cbn [constructed connect_calls replicate].
    now rewrite <- app_assoc.
Qed.

(** Outside production, however often the module is evaluated, every
    evaluation exports the same client and never throws: the one found
    in [global.__db__], or, when the slot was empty, one new client that
    the first evaluation makes and stores there.  No further client is
    constructed, and [$connect] is called on the shared one at every
    evaluation. *)
Theorem dev_reloads_share_one_client
  (env : gmap string string) (rt : Runtime) (n : nat) :
  env !! "NODE_ENV" <> Some "production" ->
  let client := default (constructed rt) (global_db rt) in
  fst (loads n env rt) = replicate n (Returned client) /\
  connect_calls (snd (loads n env rt)) = connect_calls rt ++ replicate n client /\
  (constructed (snd (loads n env rt)) <= S (constructed rt))%nat /\
  (is_Some (global_db rt) -> constructed (snd (loads n env rt)) = constructed rt) /\
  ((0 < n)%nat -> global_db (snd (loads n env rt)) = Some client).
Proof.
  intros Hdev client. destruct n as [|n].
  - simpl. rewrite app_nil_r. repeat split; lia.
  - cbn [loads]. rewrite (load_dev env rt Hdev). fold client.
    rewrite (loads_dev_from_global env _ n client Hdev) by reflexivity.
    cbn [fst snd global_db constructed connect_calls replicate].
    split; [reflexivity|]. split; [now rewrite <- app_assoc|].
    split; [destruct (global_db rt); lia|].
    split; [|reflexivity].
    intros [c Hc]. now rewrite Hc.
Qed.

(** In production every evaluation constructs a client of its own, so
    [n] evaluations export [n] different clients; the slot
    [global.__db__] is neither read nor written and [$connect] is never
    called. *)
Theorem production_loads_construct_fresh_clients
  (env : gmap string string) (rt : Runtime) (n : nat) :
  env !! "NODE_ENV" = Some "production" ->
  fst (loads n env rt)
  = (fun i => Returned (constructed rt + i)%nat) <$> seq 0 n /\
  NoDup (fst (loads n env rt)) /\
  snd (loads n env rt)
  = {| global_db := global_db rt;
       constructed := (constructed rt + n)%nat;
       connect_calls := connect_calls rt |}.
Proof.
  intros Hprod.
  assert (Hload : forall rt0, load env rt0 = (Returned (constructed rt0),
                    {| global_db := global_db rt0;
                       constructed := S (constructed rt0);
                       connect_calls := connect_calls rt0 |})).
  { intros rt0. unfold load. apply strict_eq_env in Hprod. now rewrite Hprod. }
  assert (Hgen : forall m rt0,
            loads m env rt0 =
            ((fun i => Returned (constructed rt0 + i)%nat) <$> seq 0 m,
             {| global_db := global_db rt0;
                constructed := (constructed rt0 + m)%nat;
                connect_calls := connect_calls rt0 |})).
  { induction m as [|m IH]; intros rt0.
    - simpl. rewrite Nat.add_0_r. now destruct rt0.
    - cbn [loads]. rewrite Hload, IH. cbn [global_db constructed connect_calls].
      f_equal.
      + cbn [seq fmap list_fmap]. rewrite Nat.add_0_r. f_equal.
        rewrite <- seq_shift, <- list_fmap_compose.
        apply list_fmap_ext. intros _ i _. simpl. f_equal. lia.
      + f_equal. lia. }
  rewrite Hgen. cbn [fst snd]. split; [reflexivity|]. split; [|reflexivity].
  apply NoDup_fmap_2; [|apply NoDup_seq].
  intros i j Hij. injection Hij. lia.
Qed.

(** ** How the operations compose *)

Lemma find_id_unique (db : Db) (u : User.t) :
  unique_ids db -> u ∈ db ->
  find (where_matches (WhereId (JString (User.id u)))) db = Some u.
Proof.
  unfold unique_ids.
  induction db as [|u' db IH]; intros Hnd Hin; [inversion Hin|].
  rewrite fmap_cons in Hnd. apply NoDup_cons in Hnd as [Hnotin Hnd]. simpl.
  apply elem_of_cons in Hin as [->|Hin].
  - now rewrite String.eqb_refl.
  - destruct (String.eqb (User.id u') (User.id u)) eqn:E.
    + apply String.eqb_eq in E. exfalso. apply Hnotin. rewrite E.
      apply list_elem_of_fmap. eauto.
    + auto.
Qed.

Lemma find_where_elem (w : UserWhereUnique) (db : Db) (u : User.t) :
  find (where_matches w) db = Some u -> u ∈ db /\ where_matches w u = true.
Proof.
  intros H. apply find_some in H as [Hin Hm]. split; [|exact Hm].
  now apply list_elem_of_In.
Qed.

Lemma session_get_set (name : string) (value : JsValue) (session : gmap string JsValue) :
  session_get (session_set name value session) name = value.
Proof. unfold session_get, session_set. now rewrite lookup_insert_eq. Qed.

Section SessionServerCompositions.

Context {bcrypt : Bcrypt} {storage : SessionStorage} {url_api : UrlApi}.

(** Whatever user [getUser] returns is a row of the table, named by the
    session: the object holds the [id] and [username] of a row whose id
    is the non-empty [userId] of the session, which is also what
    [getUserId] returns for the request. *)
Theorem getUser_returns_row_of_session
  (request : Request) (db db' : Db) (user : JsValue) :
  getUser request db = (Returned user, db') ->
  user <> JNull ->
  exists u,
    u ∈ db /\
    user = JObject [("id", JString (User.id u));
                    ("username", JString (User.username u))] /\
    session_get (getUserSession request) "userId" = JString (User.id u) /\
    User.id u <> "" /\
    getUserId request db = (Returned (JString (User.id u)), db).
Proof.
  rewrite getUser_run, getUserId_run. cbn zeta.
  destruct (valid_userId _) eqn:Hv; [|intros [= <- <-]; congruence].
  apply valid_userId_string in Hv as (s & Hs & Hne). rewrite Hs.
  destruct (find _ db) as [u|] eqn:Hfind; [|discriminate].
  intros [= <- <-] _. apply find_where_elem in Hfind as [Hin Hm].
  simpl in Hm. apply String.eqb_eq in Hm. subst s.
  exists u. repeat split; assumption.
Qed.

(** In a table with unique ids, a session whose [userId] is the
    (non-empty) id of a row resolves to that row: [getUser] returns its
    [id] and [username], and does not throw. *)
Theorem getUser_finds_user_of_session
  (request : Request) (db : Db) (u : User.t) :
  unique_ids db -> u ∈ db ->
  session_get (getUserSession request) "userId" = JString (User.id u) ->
  User.id u <> "" ->
  getUser request db =
  (Returned (JObject [("id", JString (User.id u));
                      ("username", JString (User.username u))]), db).
Proof.
  intros Huniq Hin Hs Hne. rewrite getUser_run. cbn zeta. rewrite Hs.
  assert (Hv : valid_userId (JString (User.id u)) = true).
  { apply valid_userId_string. eauto. }
  rewrite Hv, (find_id_unique db u Huniq Hin). reflexivity.
Qed.

(** [requiredUserId] and [getUserId] agree: the first returns exactly
    the non-null values the second returns, and throws its redirect
    exactly when the second returns [null]. *)
Theorem requiredUserId_agrees_with_getUserId
  (request : Request) (redirectTo : option string) (db : Db) :
  (forall v,
     requiredUserId request redirectTo db = (Returned v, db) <->
     getUserId request db = (Returned v, db) /\ v <> JNull) /\
  ((exists t, requiredUserId request redirectTo db = (Threw t, db)) <->
   getUserId request db = (Returned JNull, db)).
Proof.
  rewrite requiredUserId_run, getUserId_run. cbn zeta.
  destruct (valid_userId _) eqn:Hv.
  - apply valid_userId_string in Hv as (s & -> & _). split.
    + intros v. split.
      * intros [= <-]. split; [reflexivity|discriminate].
      * intros [[= <-] _]. reflexivity.
    + split; [intros [t [=]]|intros [=]].
  - split.
    + intros v. split; [intros [=]|].
      intros [[= <-] Hn]. congruence.
    + split; [reflexivity|eauto].
Qed.


(** The session made for the identity that [login] returned resolves to
    that identity: in a table with unique ids, when [login] returns
    [{id, username}] with a non-empty id and [createUserSession id]
    returns its response, [getUser] on a later request carrying the
    cookie returns the same [{id, username}]. *)
Theorem getUser_after_login_session
  (form : LoginForm.t) (db db' db'' : Db) (id name redirectTo next_url : string)
  (response : Response) :
  unique_ids db ->
  id <> "" ->
  commit_reads_back (session_set "userId" (JString id) (getSession None)) ->
  login form db
  = (Returned (JObject [("id", JString id); ("username", JString name)]), db') ->
  createUserSession id redirectTo db' = (Returned response, db'') ->
  getUser (request_after response next_url) db''
  = (Returned (JObject [("id", JString id); ("username", JString name)]), db'').
Proof.
  intros Huniq Hne Hback Hlogin Hcreate.
  rewrite login_run in Hlogin.
  destruct (find _ db) as [u|] eqn:Hfind; [|discriminate].
  destruct (bcrypt_compare _ _) as [[]|t]; try discriminate.
  injection Hlogin as <- <- <-.
  apply find_where_elem in Hfind as [Hin Hm]. simpl in Hm. apply String.eqb_eq in Hm.
  unfold createUserSession, bind, ret, settle in Hcreate. cbn zeta in Hcreate.
  destruct (commitSession _) as [cookie|e] eqn:Hcommit; [|discriminate].
  injection Hcreate as <- <-.
  rewrite getUser_run. cbn zeta.
  rewrite getUserSession_after, (Hback cookie Hcommit), session_get_set.
  assert (Hv : valid_userId (JString (User.id u)) = true).
  { apply valid_userId_string. eauto. }
  rewrite Hv, (find_id_unique db u Huniq Hin), Hm. reflexivity.
Qed.

(** The session made for a user that [register] just created resolves to
    that user, whatever else the table holds: when [register] returns
    [{id, username}] with a non-empty id and [createUserSession id]
    returns its response, [getUser] on a later request carrying the
    cookie returns the same [{id, username}]. *)
Theorem getUser_after_register_session
  (rnd : Choices) (form : LoginForm.t) (db db' db'' : Db)
  (identity : JsValue) (redirectTo next_url : string) (response : Response) :
  new_id rnd <> "" ->
  commit_reads_back (session_set "userId" (JString (new_id rnd)) (getSession None)) ->
  register rnd form db = (Returned identity, db') ->
  createUserSession (new_id rnd) redirectTo db' = (Returned response, db'') ->
  identity = JObject [("id", JString (new_id rnd));
                      ("username", JString (LoginForm.username form))] /\
  getUser (request_after response next_url) db'' = (Returned identity, db'').
Proof.
  intros Hne Hback Hreg Hcreate.
  unfold register, bind, ret, db_user_create in Hreg. cbn zeta in Hreg.
  destruct (existsb _ db) eqn:Hex; [discriminate|].
  injection Hreg as <- <-. split; [reflexivity|].
  unfold createUserSession, bind, ret, settle in Hcreate. cbn zeta in Hcreate.
  destruct (commitSession _) as [cookie|e] eqn:Hcommit; [|discriminate].
  injection Hcreate as <- <-.
  rewrite getUser_run. cbn zeta.
  rewrite getUserSession_after, (Hback cookie Hcommit), session_get_set.
  assert (Hv : valid_userId (JString (new_id rnd)) = true).
  { apply valid_userId_string. eauto. }
  rewrite Hv, find_app_none.
  - simpl. now rewrite String.eqb_refl.
  - apply find_where_none. intros u Hu.
    destruct (where_matches _ u) eqn:E; [|reflexivity]. simpl in E.
    assert (existsb (fun u => String.eqb (User.username u) (LoginForm.username form)
                              || String.eqb (User.id u) (new_id rnd)) db = true) as Hc.
    { apply existsb_exists. exists u. split; [now apply list_elem_of_In|].
      rewrite E. apply orb_true_r. }
    congruence.
Qed.

(** After [logout] the client is anonymous again: when the storage reads
    the destroyed cookie back as a session without fields, a later
    request carrying it gets [null] from [getUser] and the login
    redirect from [requiredUserId]. *)
Theorem anonymous_after_logout
  (request : Request) (db db' : Db) (response : Response)
  (next_url : string) (redirectTo : option string) (db'' : Db) :
  destroy_reads_empty (getUserSession request) ->
  logout request db = (Returned response, db') ->
  getUser (request_after response next_url) db'' = (Returned JNull, db'') /\
  requiredUserId (request_after response next_url) redirectTo db''
  = (Threw (ThrowResponse
              (redirect ("/login?redirectTo=" +:+
                         urlencode (default (URL_pathname next_url) redirectTo)) [])),
     db'').
Proof.
  intros Hempty Hlogout. rewrite logout_run in Hlogout. injection Hlogout as <- <-.
  rewrite getUser_run, requiredUserId_run. cbn zeta.
  rewrite getUserSession_after. unfold destroy_reads_empty in Hempty.
  rewrite Hempty. split; reflexivity.
Qed.

(** Only the action of the [/logout] route ends the session.  The
    loader redirects to [/login] without a [Set-Cookie] header; the
    action redirects to [/login] with the cookie of the destroyed
    session, exactly as [logout] does. *)
Theorem logout_route_loader_keeps_session (request : Request) (db : Db) :
  (exists r,
     logout_loader db = (Returned r, db) /\
     status r = 302 /\
     headers_get (resp_headers r) "Location" = Some "/login" /\
     headers_get (resp_headers r) "Set-Cookie" = None) /\
  (exists r,
     logout_action request db = (Returned r, db) /\
     logout request db = (Returned r, db) /\
     status r = 302 /\
     headers_get (resp_headers r) "Location" = Some "/login" /\
     headers_get (resp_headers r) "Set-Cookie"
       = Some (destroySession (getUserSession request))).
Proof.
  split; eexists; repeat split; reflexivity.
Qed.

(** Registering someone never changes what the users already in the
    table get: whether [register] returns or throws, a [login] that
    returned an identity before returns the same identity after, and a
    request for which [getUser] returned a user before gets the same
    user after. *)
Theorem register_keeps_existing_users_working
  (rnd : Choices) (form : LoginForm.t) (db : Db)
  (form2 : LoginForm.t) (request : Request) (v : JsValue) :
  let db' := snd (register rnd form db) in
  v <> JNull ->
  (login form2 db = (Returned v, db) -> login form2 db' = (Returned v, db')) /\
  (getUser request db = (Returned v, db) -> getUser request db' = (Returned v, db')).
Proof.
  intros db' Hv.
  assert (Hdb : db' = db \/ exists u, db' = db ++ [u]).
  { subst db'. unfold register, bind, ret, db_user_create. cbn zeta.
    destruct (existsb _ db); simpl; eauto. }
  destruct Hdb as [->|[u ->]]; [split; trivial|]. split.
  - rewrite !login_run.
    destruct (find _ db) as [u0|] eqn:Hfind; [|intros [= <-]; congruence].
    rewrite (find_app_some _ _ [u] _ Hfind).
    destruct (bcrypt_compare _ _) as [[]|t]; intros [= <-]; [reflexivity|congruence].
  - rewrite !getUser_run. cbn zeta.
    destruct (valid_userId _); [|intros [= <-]; congruence].
    destruct (find _ db) as [u0|] eqn:Hfind; [|discriminate].
    rewrite (find_app_some _ _ [u] _ Hfind). now intros [= <-].
Qed.

End SessionServerCompositions.

(** ** The module on examples *)

#[local] Existing Instances demo_bcrypt demo_storage demo_url.

Example urlencode_path :
  urlencode "/jokes/new joke?a=b" = "%2Fjokes%2Fnew+joke%3Fa%3Db".
Proof. reflexivity. Qed.

Example demo_pathname :
  URL_pathname "http://localhost:3000/jokes/new?x=1" = "/jokes/new".
Proof. reflexivity. Qed.

Lemma demo_users_ids (i : string) :
  i <> "u1" -> i <> "u2" -> forall u, u ∈ demo_users -> User.id u <> i.
Proof.
  intros H1 H2 u Hu. unfold demo_users in Hu.
  repeat (apply elem_of_cons in Hu as [->|Hu]; [simpl; congruence|]).
  now apply elem_of_nil in Hu.
Qed.

Lemma demo_users_unique : unique_usernames demo_users.
Proof.
  unfold unique_usernames, demo_users. simpl.
  repeat (apply NoDup_cons; split; [absent_name|]). apply NoDup_nil_2.
Qed.

Lemma getUser_stale_session_throws_unawaited_promise_witness :
  session_get (getUserSession stale_request) "userId" = JString "ghost" /\
  getUser stale_request demo_users
  = (Threw (ThrowPromise
              (Returned (redirect "/login" [("Set-Cookie", destroyed_cookie)]))),
     demo_users) /\
  (forall response,
     getUser stale_request demo_users <> (Threw (ThrowResponse response), demo_users)).
Proof.
  split; [reflexivity|].
  destruct (getUser_stale_session_throws_unawaited_promise
              stale_request demo_users "ghost") as (_ & Hthrow & Hresponse & _).
  - reflexivity.
  - discriminate.
  - apply demo_users_ids; discriminate.
  - split; [exact Hthrow|exact Hresponse].
Defined.

Lemma login_after_register_witness :
  register joe_choices joe_form demo_users
  = (Returned (JObject [("id", JString "u3"); ("username", JString "joe")]),
     demo_users ++ [User.mk "u3" "joe" "$2a$salt3$s3cret"]) /\
  exists id,
    JObject [("id", JString "u3"); ("username", JString "joe")]
    = JObject [("id", JString id); ("username", JString "joe")] /\
    forall later,
      login joe_form ((demo_users ++ [User.mk "u3" "joe" "$2a$salt3$s3cret"]) ++ later)
      = (Returned (JObject [("id", JString id); ("username", JString "joe")]),
         (demo_users ++ [User.mk "u3" "joe" "$2a$salt3$s3cret"]) ++ later).
Proof.
  split; [reflexivity|].
  apply (login_after_register joe_choices joe_form demo_users); reflexivity.
Defined.

Lemma login_null_or_identity_witness :
  login (LoginForm.mk "twixrox" "kody") demo_users
  = (Returned (JObject [("id", JString "u1"); ("username", JString "kody")]),
     demo_users) /\
  login (LoginForm.mk "twixrocks" "kody") demo_users = (Returned JNull, demo_users) /\
  login (LoginForm.mk "twixrox" "ghost") demo_users = (Returned JNull, demo_users) /\
  login (LoginForm.mk "plain-text-password" "legacy") [legacy]
  = (Threw (ThrowError "Invalid salt version"), [legacy]).
Proof.
  split; [|split; [|split]].
  - destruct (login_null_or_identity (LoginForm.mk "twixrox" "kody") demo_users)
      as (_ & Hrow).
    destruct (Hrow kody) as (_ & Htrue & _);
      [apply demo_users_unique|apply list_elem_of_here|reflexivity|].
    apply Htrue. reflexivity.
  - destruct (login_null_or_identity (LoginForm.mk "twixrocks" "kody") demo_users)
      as (_ & Hrow).
    destruct (Hrow kody) as (Hfalse & _);
      [apply demo_users_unique|apply list_elem_of_here|reflexivity|].
    apply Hfalse. reflexivity.
  - destruct (login_null_or_identity (LoginForm.mk "twixrox" "ghost") demo_users)
      as (Hnone & _).
    apply Hnone. intros u Hu. unfold demo_users in Hu.
    repeat (apply elem_of_cons in Hu as [->|Hu]; [discriminate|]).
    now apply elem_of_nil in Hu.
  - destruct (login_null_or_identity
                (LoginForm.mk "plain-text-password" "legacy") [legacy])
      as (_ & Hrow).
    destruct (Hrow legacy) as (_ & _ & Hthrow);
      [apply NoDup_singleton|apply list_elem_of_here|reflexivity|].
    apply Hthrow. reflexivity.
Defined.

Lemma requiredUserId_redirects_to_login_witness :
  headers_get (req_headers (jokes_request None)) "Cookie" = None /\
  (exists r,
     requiredUserId (jokes_request None) None demo_users
       = (Threw (ThrowResponse r), demo_users) /\
     status r = 302 /\
     headers_get (resp_headers r) "Location" = Some "/login?redirectTo=%2Fjokes") /\
  requiredUserId (jokes_request (Some "RJ_session=u.u1")) None demo_users
  = (Returned (JString "u1"), demo_users).
Proof.
  split; [reflexivity|]. split.
  - destruct (requiredUserId_redirects_to_login (jokes_request None) None demo_users)
      as (Hthrow & Hnocookie & _ & _).
    apply Hthrow, Hnocookie; reflexivity.
  - destruct (requiredUserId_redirects_to_login
                (jokes_request (Some "RJ_session=u.u1")) None demo_users)
      as (_ & _ & _ & Hret).
    apply Hret. reflexivity.
Defined.

(** C5 as stated fails for the empty string: [createUserSession]
    returns its response, the storage reads the cookie back as the
    session that was committed, and yet [getUserId] on the request
    carrying it returns [null], not the empty string. *)
Lemma getUserId_after_createUserSession_counterexample :
  createUserSession "" "/dashboard" demo_users
  = (Returned (redirect "/dashboard"
                 [("Set-Cookie",
                   "RJ_session=u.; Max-Age=2592000; Path=/; HttpOnly; SameSite=Lax")]),
     demo_users) /\
  getSession (Some (cookie_pair
     "RJ_session=u.; Max-Age=2592000; Path=/; HttpOnly; SameSite=Lax"))
  = session_set "userId" (JString "") (getSession None) /\
  getUserId
    (request_after
       (redirect "/dashboard"
          [("Set-Cookie",
            "RJ_session=u.; Max-Age=2592000; Path=/; HttpOnly; SameSite=Lax")])
       "http://localhost:3000/dashboard") demo_users
  = (Returned JNull, demo_users) /\
  JNull <> JString "".
Proof. repeat split; try reflexivity. discriminate. Qed.

Lemma getUserId_after_createUserSession_witness :
  createUserSession "u1" "/dashboard" demo_users
  = (Returned (redirect "/dashboard"
                 [("Set-Cookie",
                   "RJ_session=u.u1; Max-Age=2592000; Path=/; HttpOnly; SameSite=Lax")]),
     demo_users) /\
  getUserId
    (request_after
       (redirect "/dashboard"
          [("Set-Cookie",
            "RJ_session=u.u1; Max-Age=2592000; Path=/; HttpOnly; SameSite=Lax")])
       "http://localhost:3000/dashboard") demo_users
  = (Returned (JString "u1"), demo_users).
Proof.
  split; [reflexivity|].
  destruct (getUserId_after_createUserSession "u1" "/dashboard" demo_users demo_users
              (redirect "/dashboard"
                 [("Set-Cookie",
                   "RJ_session=u.u1; Max-Age=2592000; Path=/; HttpOnly; SameSite=Lax")]))
    as (_ & _ & Hnext).
  - discriminate.
  - intros cookie Hcommit. vm_compute in Hcommit.
    injection Hcommit as <-. reflexivity.
  - reflexivity.
  - apply Hnext.
Defined.

Lemma getUserId_after_logout_witness :
  destroy_reads_empty (getUserSession (jokes_request (Some "RJ_session=u.u1"))) /\
  exists response,
    logout (jokes_request (Some "RJ_session=u.u1")) demo_users
      = (Returned response, demo_users) /\
    status response = 302 /\
    headers_get (resp_headers response) "Location" = Some "/login" /\
    headers_get (resp_headers response) "Set-Cookie"
      = Some (destroySession (getUserSession (jokes_request (Some "RJ_session=u.u1")))) /\
    forall next_url db',
      getUserId (request_after response next_url) db' = (Returned JNull, db').
Proof.
  split; [reflexivity|].
  apply (getUserId_after_logout (jokes_request (Some "RJ_session=u.u1")) demo_users).
  reflexivity.
Defined.

Lemma getUserId_null_witness :
  getUserSession (jokes_request None) !! "userId" = None /\
  getUserId (jokes_request None) demo_users = (Returned JNull, demo_users).
Proof.
  split; [reflexivity|].
  destruct (getUserId_null_without_string_userId (jokes_request None) demo_users)
    as (_ & _ & Hnull).
  apply Hnull. left. reflexivity.
Defined.

Lemma user_table_never_mutated_witness :
  demo_users !! 0%nat = Some kody /\
  snd (register joe_choices joe_form demo_users) !! 0%nat = Some kody.
Proof.
  split; [reflexivity|].
  destruct (user_table_never_mutated joe_choices joe_form stale_request None
              "u1" "/jokes" demo_users) as (_ & Hrows & _).
  apply Hrows. reflexivity.
Defined.

Lemma passwordHash_never_returned_witness :
  same_public demo_users
    [User.mk "u1" "kody" "$2a$other$twixrox"; User.mk "u2" "mr_bean" "$2a$x$y"] /\
  login (LoginForm.mk "twixrox" "kody")
    [User.mk "u1" "kody" "$2a$other$twixrox"; User.mk "u2" "mr_bean" "$2a$x$y"]
  = (Returned (JObject [("id", JString "u1"); ("username", JString "kody")]),
     [User.mk "u1" "kody" "$2a$other$twixrox"; User.mk "u2" "mr_bean" "$2a$x$y"]) /\
  JObject [("id", JString "u1"); ("username", JString "kody")]
  = JObject [("id", JString "u1"); ("username", JString "kody")].
Proof.
  split; [reflexivity|]. split; [reflexivity|].
  destruct (passwordHash_never_returned joe_choices (LoginForm.mk "twixrox" "kody")
              stale_request None "u1" "/jokes" demo_users demo_users
              [User.mk "u1" "kody" "$2a$other$twixrox"; User.mk "u2" "mr_bean" "$2a$x$y"]
              (JObject [("id", JString "u1"); ("username", JString "kody")]))
    as (_ & _ & _ & Hsame & _).
  destruct Hsame as (Hlogin & _); [reflexivity|].
  apply (Hlogin _ [User.mk "u1" "kody" "$2a$other$twixrox"; User.mk "u2" "mr_bean" "$2a$x$y"]).
  - reflexivity.
  - discriminate.
  - reflexivity.
  - discriminate.
Defined.

Lemma empty_userId_treated_as_absent_witness :
  session_get (getUserSession empty_id_request) "userId" = JString "" /\
  getUserId empty_id_request demo_users = (Returned JNull, demo_users) /\
  requiredUserId empty_id_request None demo_users
  = (Threw (ThrowResponse (redirect "/login?redirectTo=%2Fjokes" [])), demo_users).
Proof.
  split; [reflexivity|].
  destruct (empty_userId_treated_as_absent empty_id_request None demo_users)
    as (Hempty & _ & _).
  apply Hempty. reflexivity.
Defined.

(** ** Start-up, the Prisma handle and the compositions on examples *)

Lemma demo_users_unique_ids : unique_ids demo_users.
Proof.
  unfold unique_ids, demo_users. simpl.
  repeat (apply NoDup_cons; split; [absent_name|]). apply NoDup_nil_2.
Qed.

Lemma load_session_module_needs_secret_witness :
  load_session_module (∅ : gmap string string)
  = Threw (ThrowError "SESSION_SECRET must be set") /\
  exists opts,
    load_session_module dev_env = Returned opts /\
    Cookie.name opts = "RJ_session" /\
    Cookie.secrets opts = [JString "s3cr3t"] /\
    Cookie.maxAge opts = 2592000 /\
    (Cookie.secure opts = true <-> dev_env !! "NODE_ENV" = Some "production").
Proof.
  split.
  - destruct (load_session_module_needs_secret ∅) as (Hnone & _).
    apply Hnone. left. reflexivity.
  - destruct (load_session_module_needs_secret dev_env) as (_ & Hsome).
    apply Hsome; [reflexivity|discriminate].
Defined.

Lemma dev_reloads_share_one_client_witness :
  fst (loads 3 dev_env fresh_runtime) = [Returned 0%nat; Returned 0%nat; Returned 0%nat] /\
  connect_calls (snd (loads 3 dev_env fresh_runtime)) = [0%nat; 0%nat; 0%nat] /\
  (constructed (snd (loads 3 dev_env fresh_runtime)) <= 1)%nat.
Proof.
  destruct (dev_reloads_share_one_client dev_env fresh_runtime 3)
    as (Hdbs & Hcalls & Hcount & _).
  - intros H. vm_compute in H. discriminate H.
  - split; [exact Hdbs|]. split; [exact Hcalls|exact Hcount].
Defined.

Lemma production_loads_construct_fresh_clients_witness :
  fst (loads 2 production_env fresh_runtime) = [Returned 0%nat; Returned 1%nat] /\
  snd (loads 2 production_env fresh_runtime) = mkRuntime None 2 [].
Proof.
  destruct (production_loads_construct_fresh_clients production_env fresh_runtime 2)
    as (Hdbs & _ & Hrt).
  - reflexivity.
  - split; [exact Hdbs|exact Hrt].
Defined.

Lemma getUser_returns_row_of_session_witness :
  exists u,
    u ∈ demo_users /\
    JObject [("id", JString "u1"); ("username", JString "kody")]
    = JObject [("id", JString (User.id u)); ("username", JString (User.username u))] /\
    session_get (getUserSession (jokes_request (Some "RJ_session=u.u1"))) "userId"
    = JString (User.id u) /\
    User.id u <> "" /\
    getUserId (jokes_request (Some "RJ_session=u.u1")) demo_users
    = (Returned (JString (User.id u)), demo_users).
Proof.
  apply (getUser_returns_row_of_session
           (jokes_request (Some "RJ_session=u.u1")) demo_users demo_users).
  - reflexivity.
  - discriminate.
Defined.

Lemma getUser_finds_user_of_session_witness :
  getUser (jokes_request (Some "RJ_session=u.u1")) demo_users
  = (Returned (JObject [("id", JString "u1"); ("username", JString "kody")]),
     demo_users).
Proof.
  apply (getUser_finds_user_of_session
           (jokes_request (Some "RJ_session=u.u1")) demo_users kody).
  - apply demo_users_unique_ids.
  - apply list_elem_of_here.
  - reflexivity.
  - discriminate.
Defined.

Lemma requiredUserId_agrees_with_getUserId_witness :
  requiredUserId (jokes_request (Some "RJ_session=u.u1")) None demo_users
  = (Returned (JString "u1"), demo_users) /\
  exists t, requiredUserId (jokes_request None) None demo_users = (Threw t, demo_users).
Proof.
  split.
  - destruct (requiredUserId_agrees_with_getUserId
                (jokes_request (Some "RJ_session=u.u1")) None demo_users)
      as (Hsame & _).
    apply Hsame. split; [reflexivity|discriminate].
  - destruct (requiredUserId_agrees_with_getUserId (jokes_request None) None demo_users)
      as (_ & Hnull).
    apply Hnull. reflexivity.
Defined.


Lemma getUser_after_login_session_witness :
  login (LoginForm.mk "twixrox" "kody") demo_users
  = (Returned (JObject [("id", JString "u1"); ("username", JString "kody")]),
     demo_users) /\
  getUser
    (request_after
       (redirect "/jokes"
          [("Set-Cookie",
            "RJ_session=u.u1; Max-Age=2592000; Path=/; HttpOnly; SameSite=Lax")])
       "http://localhost:3000/jokes") demo_users
  = (Returned (JObject [("id", JString "u1"); ("username", JString "kody")]),
     demo_users).
Proof.
  split; [reflexivity|].
  apply (getUser_after_login_session (LoginForm.mk "twixrox" "kody")
           demo_users demo_users demo_users "u1" "kody" "/jokes").
  - apply demo_users_unique_ids.
  - discriminate.
  - intros cookie Hcommit. vm_compute in Hcommit.
    injection Hcommit as <-. reflexivity.
  - reflexivity.
  - reflexivity.
Defined.

Lemma getUser_after_register_session_witness :
  JObject [("id", JString "u3"); ("username", JString "joe")]
  = JObject [("id", JString (new_id joe_choices));
             ("username", JString (LoginForm.username joe_form))] /\
  getUser
    (request_after
       (redirect "/jokes"
          [("Set-Cookie",
            "RJ_session=u.u3; Max-Age=2592000; Path=/; HttpOnly; SameSite=Lax")])
       "http://localhost:3000/jokes")
    (demo_users ++ [User.mk "u3" "joe" "$2a$salt3$s3cret"])
  = (Returned (JObject [("id", JString "u3"); ("username", JString "joe")]),
     demo_users ++ [User.mk "u3" "joe" "$2a$salt3$s3cret"]).
Proof.
  apply (getUser_after_register_session joe_choices joe_form demo_users
           (demo_users ++ [User.mk "u3" "joe" "$2a$salt3$s3cret"])
           (demo_users ++ [User.mk "u3" "joe" "$2a$salt3$s3cret"])
           (JObject [("id", JString "u3"); ("username", JString "joe")]) "/jokes").
  - discriminate.
  - intros cookie Hcommit. vm_compute in Hcommit.
    injection Hcommit as <-. reflexivity.
  - reflexivity.
  - reflexivity.
Defined.

Lemma anonymous_after_logout_witness :
  getUser
    (request_after (redirect "/login" [("Set-Cookie", destroyed_cookie)])
       "http://localhost:3000/jokes") demo_users
  = (Returned JNull, demo_users) /\
  requiredUserId
    (request_after (redirect "/login" [("Set-Cookie", destroyed_cookie)])
       "http://localhost:3000/jokes") None demo_users
  = (Threw (ThrowResponse (redirect "/login?redirectTo=%2Fjokes" [])), demo_users).
Proof.
  destruct (anonymous_after_logout (jokes_request (Some "RJ_session=u.u1"))
              demo_users demo_users
              (redirect "/login" [("Set-Cookie", destroyed_cookie)])
              "http://localhost:3000/jokes" None demo_users) as (Huser & Hrequired).
  - reflexivity.
  - reflexivity.
  - split; [exact Huser|]. rewrite Hrequired. reflexivity.
Defined.

Lemma register_keeps_existing_users_working_witness :
  login (LoginForm.mk "twixrox" "kody") (snd (register joe_choices joe_form demo_users))
  = (Returned (JObject [("id", JString "u1"); ("username", JString "kody")]),
     snd (register joe_choices joe_form demo_users)).
Proof.
  destruct (register_keeps_existing_users_working joe_choices joe_form demo_users
              (LoginForm.mk "twixrox" "kody") stale_request
              (JObject [("id", JString "u1"); ("username", JString "kody")]))
    as (Hlogin & _).
  - discriminate.
  - apply Hlogin. reflexivity.
Defined.
